(** * Fairlearn: [GroupFeature] and the [Moment] contract

    A shallow embedding of
      - [fairlearn/metrics/_group_feature.py]   (class [GroupFeature])
      - [fairlearn/reductions/_moments/moment.py]
        (classes [Moment], [ClassificationMoment], [LossMoment])
    followed by the properties of the two components.

    Python objects are records, attributes that may not have been assigned
    yet are [option] fields, a raised exception is the [inl] branch of a
    result, and the methods of [Moment], which mutate [self], are written in
    a state-and-exception monad in which a raised exception keeps the
    mutations made before it (as Python does).  The pandas, narwhals and
    numpy operations the two files call are modelled in the modules [pd],
    [nw] and [np] below. *)

From Stdlib Require Import String Ascii ZArith List Bool Arith Lia.
From Stdlib Require Import DecimalString DecimalZ DecimalPos Sorted OrdersEx.
From Stdlib Require Import RelationClasses Finite.
Import ListNotations.
Local Open Scope string_scope.

(* ===================================================================== *)
(** * Python values *)
(* ===================================================================== *)

(** The built-in exception classes the two files can raise, directly or
    through a library call. *)
Inductive exc_class : Type :=
| AssertionError
| AttributeError
| NotImplementedError
| ShapeError
| TypeError
| ValueError.

(** An exception instance: its class and the message it was built with
    ([NotImplementedError()] has the empty message). *)
Record exn : Type := Exc { exc_type : exc_class; exc_msg : string }.

(** The outcome of a call that may raise. *)
Definition result (A : Type) : Type := (exn + A)%type.
Definition Ok {A} (a : A) : result A := inr a.
Definition Raise {A} (e : exn) : result A := inl e.

(** Scalars: what a pandas Series can carry as its [name].  [PyOther] is an
    object of any other class (a float, a tuple, a numpy integer, ...),
    none of them a subclass of [str]; of such an object the source uses
    only what [str] and [type] give, which the constructor keeps: the name
    of the class as [str(type(v))] shows it, and [str(v)]. *)
Inductive pyobj : Type :=
| PyNone
| PyBool (b : bool)
| PyInt (z : Z)
| PyStr (s : string)
| PyOther (class_name text : string).

Inductive pytype : Type :=
| NoneType
| bool_t
| int_t
| str_t
| other_t (class_name : string).

(** [type(v)] *)
Definition type (v : pyobj) : pytype :=
  match v with
  | PyNone => NoneType
  | PyBool _ => bool_t
  | PyInt _ => int_t
  | PyStr _ => str_t
  | PyOther c _ => other_t c
  end.

(** [v is None] *)
Definition is_None (v : pyobj) : bool :=
  match v with PyNone => true | _ => false end.

(** [isinstance(v, str)] *)
Definition isinstance_str (v : pyobj) : bool :=
  match type v with str_t => true | _ => false end.

(** [str(v)] for a scalar. *)
Definition str (v : pyobj) : string :=
  match v with
  | PyNone => "None"
  | PyBool true => "True"
  | PyBool false => "False"
  | PyInt z => NilZero.string_of_int (Z.to_int z)
  | PyStr s => s
  | PyOther _ t => t
  end.

(** [str(t)] for a type object. *)
Definition str_type (t : pytype) : string :=
  match t with
  | NoneType => "<class 'NoneType'>"
  | bool_t => "<class 'bool'>"
  | int_t => "<class 'int'>"
  | str_t => "<class 'str'>"
  | other_t c => "<class '" ++ c ++ "'>"
  end.

Definition is_digit (c : ascii) : bool :=
  let n := nat_of_ascii c in Nat.leb 48 n && Nat.leb n 57.

Definition digit_val (c : ascii) : nat := nat_of_ascii c - 48.

(** [tmpl.format(a0, a1, ...)] for templates whose replacement fields are
    single-digit positional ones ([{0}], [{1}], ...), which is all the
    source uses; the arguments are passed already converted by [str]. *)
Fixpoint format (tmpl : string) (args : list string) : string :=
  match tmpl with
  | EmptyString => EmptyString
  | String c rest =>
      match rest with
      | String d (String e rest') =>
          if Ascii.eqb c "{" && is_digit d && Ascii.eqb e "}"
          then nth (digit_val d) args "" ++ format rest' args
          else String c (format rest args)
      | _ => String c (format rest args)
      end
  end.

(** [repr] of a list of strings, as [print] shows [DataFrame.columns]. *)
Definition repr_str (s : string) : string := "'" ++ s ++ "'".

Definition repr_list (l : list string) : string :=
  "[" ++ String.concat ", " (map repr_str l) ++ "]".

(* ===================================================================== *)
(** * Columns of data, pandas, narwhals, numpy *)
(* ===================================================================== *)

(** The values of numpy's [int64]. *)
Definition in_int64 (z : Z) : bool := ((- 2 ^ 63 <=? z) && (z <? 2 ^ 63))%Z.

Record int64 : Type := mk_int64 {
  int64_val : Z;
  int64_range : in_int64 int64_val = true
}.

(** [i64 z] is the [int64] of value [z]; it is ill-typed when [z] is out of
    range. *)
Notation "'i64' z" := (mk_int64 z%Z eq_refl) (at level 9, z at level 9).

(** What an array of dtype [object] holds here: [None], Python integers
    (of any size) and strings. *)
Inductive objval : Type :=
| ONone
| OInt (z : Z)
| OStr (s : string).

Definition obj_to_py (o : objval) : pyobj :=
  match o with
  | ONone => PyNone
  | OInt z => PyInt z
  | OStr s => PyStr s
  end.

(** A one-dimensional array with its dtype: [int64]; strings (the Python
    strings of a pandas column, or a numpy string array); or [object],
    holding [None], integers and strings in any mix. *)
Inductive column : Type :=
| IntCol (l : list int64)
| StrCol (l : list string)
| ObjCol (l : list objval).

Definition col_len (c : column) : nat :=
  match c with
  | IntCol l => length l
  | StrCol l => length l
  | ObjCol l => length l
  end.

(** The entries of a column as Python scalars. *)
Definition col_items (c : column) : list pyobj :=
  match c with
  | IntCol l => map (fun i => PyInt (int64_val i)) l
  | StrCol l => map PyStr l
  | ObjCol l => map obj_to_py l
  end.

(** [c[i]] *)
Definition col_get (c : column) (i : nat) : option pyobj :=
  nth_error (col_items c) i.

(** The column of height [n] every entry of which is the first entry of
    [c]. *)
Definition col_broadcast (c : column) (n : nat) : column :=
  match c with
  | IntCol l => IntCol (match l with x :: _ => repeat x n | [] => [] end)
  | StrCol l => StrCol (match l with x :: _ => repeat x n | [] => [] end)
  | ObjCol l => ObjCol (match l with x :: _ => repeat x n | [] => [] end)
  end.

Module pd.

(** [pandas.Series]: the values and the [name], which pandas lets be any
    hashable scalar or [None]. *)
Record Series : Type := mkSeries { name : pyobj; values : column }.

(** [pandas.DataFrame]: named columns, in order. *)
Definition DataFrame : Type := list (string * column).

End pd.

(** What a caller may pass where the source expects "array-like" data. *)
Inductive array_like : Type :=
| PdSeries (s : pd.Series)     (* a native pandas Series *)
| NwSeries (s : pd.Series)     (* a narwhals Series wrapping a native one *)
| NdArray (c : column).        (* a numpy array: no name *)

Definition data_of (a : array_like) : column :=
  match a with
  | PdSeries s | NwSeries s => pd.values s
  | NdArray c => c
  end.

(** [len(a)] *)
Definition len (a : array_like) : nat := col_len (data_of a).

(** [isinstance(a, nw.Series)] and [isinstance(a, pd.Series)] *)
Definition isinstance_nw_Series (a : array_like) : bool :=
  match a with NwSeries _ => true | _ => false end.

Definition isinstance_pd_Series (a : array_like) : bool :=
  match a with PdSeries _ => true | _ => false end.

(** The name a feature vector carries, if it is of a kind that carries
    one. *)
Definition intrinsic_name (a : array_like) : option pyobj :=
  match a with
  | PdSeries s | NwSeries s => Some (pd.name s)
  | NdArray _ => None
  end.

Module np.

Section Unique.
Variable A : Type.
Variable cmp : A -> A -> comparison.

Fixpoint insert (x : A) (l : list A) : list A :=
  match l with
  | [] => [x]
  | y :: l' =>
      match cmp x y with
      | Gt => y :: insert x l'
      | _ => x :: l
      end
  end.

Definition sort (l : list A) : list A := fold_right insert [] l.

(** Keep the entries of a sorted list that differ from their
    predecessor, [prev] being the predecessor of the head. *)
Fixpoint keep_changes (prev : A) (l : list A) : list A :=
  match l with
  | [] => []
  | y :: l' =>
      match cmp prev y with
      | Eq => keep_changes prev l'
      | _ => y :: keep_changes y l'
      end
  end.

Definition drop_repeats (l : list A) : list A :=
  match l with
  | [] => []
  | x :: l' => x :: keep_changes x l'
  end.

(** numpy's [unique]: sort, then mask out every entry equal to the one
    before it. *)
Definition unique_list (l : list A) : list A := drop_repeats (sort l).
End Unique.

Definition int64_compare (a b : int64) : comparison :=
  Z.compare (int64_val a) (int64_val b).

Definition is_int (o : objval) : bool :=
  match o with OInt _ => true | _ => false end.

Definition is_str (o : objval) : bool :=
  match o with OStr _ => true | _ => false end.

(** Sorting an [object] array compares its entries with Python's [<],
    which is defined between two integers and between two strings and
    raises [TypeError] between any other two entries, two [None] included.
    A sort of two entries or more has to compare every entry with some
    other one, so it returns exactly when all entries are integers or all
    are strings; a sort of one entry or none compares nothing. *)
Definition sortable (l : list objval) : bool :=
  Nat.leb (length l) 1 || forallb is_int l || forallb is_str l.

Definition obj_rank (o : objval) : nat :=
  match o with ONone => 0 | OInt _ => 1 | OStr _ => 2 end.

(** Python's order on two integers and on two strings.  (Between entries
    of two kinds, on which no sort that returns depends, the kinds are
    compared.) *)
Definition obj_compare (a b : objval) : comparison :=
  match a, b with
  | OInt x, OInt y => Z.compare x y
  | OStr s, OStr t => String_as_OT.compare s t
  | _, _ => Nat.compare (obj_rank a) (obj_rank b)
  end.

(** [np.unique(c)] on an array, by dtype. *)
Definition unique_col (c : column) : result column :=
  match c with
  | IntCol l => Ok (IntCol (unique_list int64 int64_compare l))
  | StrCol l => Ok (StrCol (unique_list string String_as_OT.compare l))
  | ObjCol l =>
      if sortable l then Ok (ObjCol (unique_list objval obj_compare l))
      else Raise (Exc TypeError "'<' not supported between instances")
  end.

(** [np.unique(a)]: a Series is read through its values. *)
Definition unique (a : array_like) : result column := unique_col (data_of a).

End np.

(* ===================================================================== *)
(** * [fairlearn/metrics/_group_feature.py] *)
(* ===================================================================== *)

Definition _SERIES_NAME_NOT_STRING : string :=
  "Series name must be a string. Value '{0}' was of type {1}".

(** [nw.Series.to_pandas()]: the native pandas Series, which still has the
    name it was created with. *)
Definition to_pandas (s : pd.Series) : array_like := PdSeries s.

Record GroupFeature : Type := mkGroupFeature {
  raw_feature_ : array_like;
  classes_ : column;
  name_ : string
}.

(** [GroupFeature.__init__(self, base_name, feature_vector, index, name)].
    An exception raised by [__init__] leaves the caller without an object,
    so the constructor is a function to [result GroupFeature]. *)
Definition GroupFeature_init (base_name : string) (feature_vector : array_like)
    (index : Z) (name : option string) : result GroupFeature :=
  let raw_feature_ :=
    match feature_vector with
    | NwSeries s => to_pandas s
    | _ => feature_vector
    end in
  match np.unique raw_feature_ with
  | inl e => Raise e
  | inr classes_ =>
      let name_ := format "{0}{1}" [base_name; str (PyInt index)] in
      match name with
      | Some n => Ok (mkGroupFeature raw_feature_ classes_ n)
      | None =>
          match raw_feature_ with
          | PdSeries s =>
              if negb (is_None (pd.name s)) then
                if isinstance_str (pd.name s) then
                  Ok (mkGroupFeature raw_feature_ classes_ (str (pd.name s)))
                else
                  let msg :=
                    format _SERIES_NAME_NOT_STRING
                      [str (pd.name s); str_type (type (pd.name s))] in
                  Raise (Exc ValueError msg)
              else Ok (mkGroupFeature raw_feature_ classes_ name_)
          | _ => Ok (mkGroupFeature raw_feature_ classes_ name_)
          end
      end
  end.

(* ===================================================================== *)
(** * narwhals *)
(* ===================================================================== *)

Module nw.

(** [narwhals.DataFrame], known by the columns of the native frame it
    wraps.  Column names are strings. *)
Definition DataFrame : Type := pd.DataFrame.

(** [df.columns] *)
Definition columns (df : DataFrame) : list string := map fst df.

(** [df.shape[0]] *)
Definition height (df : DataFrame) : nat :=
  match df with
  | [] => 0
  | (_, c) :: _ => col_len c
  end.

(** [df[n]] *)
Fixpoint get_column (df : DataFrame) (n : string) : option column :=
  match df with
  | [] => None
  | (m, c) :: df' => if String.eqb m n then Some c else get_column df' n
  end.

(** Put column [c] under the name [n]: in place of the column of that name
    when there is one, after the last column otherwise. *)
Fixpoint put_column (df : DataFrame) (n : string) (c : column) : DataFrame :=
  match df with
  | [] => [(n, c)]
  | (m, d) :: df' =>
      if String.eqb m n then (n, c) :: df' else (m, d) :: put_column df' n c
  end.

(** [nw.from_native(obj, series_only=True)]: a Series, native or already
    wrapped, becomes a narwhals Series; anything else is rejected. *)
Definition from_native_series_only (a : array_like) : result array_like :=
  match a with
  | PdSeries s | NwSeries s => Ok (NwSeries s)
  | NdArray _ => Raise (Exc TypeError "from_native: expected a series")
  end.

(** [nw.from_native(obj, strict=False, allow_series=True)]: as above, but
    an object narwhals does not support is handed back as it is. *)
Definition from_native_pass_through (a : array_like) : array_like :=
  match a with
  | PdSeries s | NwSeries s => NwSeries s
  | NdArray c => NdArray c
  end.

(** [obj.alias(n)]: only a narwhals Series has the method. *)
Definition alias (a : array_like) (n : string) : result array_like :=
  match a with
  | NwSeries s => Ok (NwSeries (pd.mkSeries (PyStr n) (pd.values s)))
  | PdSeries _ =>
      Raise (Exc AttributeError "'Series' object has no attribute 'alias'")
  | NdArray _ =>
      Raise (Exc AttributeError
               "'numpy.ndarray' object has no attribute 'alias'")
  end.

(** [obj.to_frame()] on a narwhals Series: the one-column frame. *)
Definition to_frame (a : array_like) : result DataFrame :=
  match a with
  | NwSeries s => Ok [(str (pd.name s), pd.values s)]
  | _ => Raise (Exc AttributeError "object has no attribute 'to_frame'")
  end.

(** [df.with_columns(s)] for a narwhals Series [s]: the column is aligned by
    position; a Series of length one is broadcast to the height of the
    frame, any other length than the frame's is rejected. *)
Definition with_columns (df : DataFrame) (a : array_like) : result DataFrame :=
  match a with
  | NwSeries s =>
      let n := str (pd.name s) in
      let c := pd.values s in
      if Nat.eqb (col_len c) (height df) then Ok (put_column df n c)
      else if Nat.eqb (col_len c) 1
           then Ok (put_column df n (col_broadcast c (height df)))
           else Raise (Exc ShapeError "length of the column does not match")
  | _ => Raise (Exc TypeError "with_columns: expected a narwhals object")
  end.

End nw.

(* ===================================================================== *)
(** * [fairlearn/reductions/_moments/moment.py] *)
(* ===================================================================== *)

Definition _GROUP_ID : string := "group_id".
Definition _EVENT : string := "event".
Definition _LABEL : string := "label".
Definition _LOSS : string := "loss".
Definition _PREDICTION : string := "pred".
Definition _ALL : string := "all".
Definition _SIGN : string := "sign".

(** The three classes of the file. *)
Inductive moment_class : Type :=
| Moment
| ClassificationMoment
| LossMoment.

(** [cls.__name__] *)
Definition class_name (c : moment_class) : string :=
  match c with
  | Moment => "Moment"
  | ClassificationMoment => "ClassificationMoment"
  | LossMoment => "LossMoment"
  end.

(** A reference to an arbitrary Python object, known by its identity
    ([id(obj)]); [a is b] compares identities. *)
Record object_ref : Type := Ref { id_of : nat }.

Definition py_is (a b : object_ref) : bool := Nat.eqb (id_of a) (id_of b).

(** What [_moment_type] can return: a class object of this file, an
    exception class, or an exception instance. *)
Inductive pyvalue : Type :=
| V_class (c : moment_class)
| V_exc_class (c : exc_class)
| V_exc_instance (e : exn).

(** The feature array [X], a two-dimensional numpy array: rows of numbers;
    [X.shape[0]] is the number of rows. *)
Definition matrix : Type := list (list Z).

Definition shape0 (m : matrix) : nat := length m.

(** [nw.from_native(X, strict=False)]: narwhals does not wrap a numpy
    array and hands it back as it is. *)
Definition from_native_X (m : matrix) : matrix := m.

(** What [self.tags] holds: the narwhals DataFrame [load_data] builds, or
    the native pandas DataFrame inside it. *)
Inductive frame : Type :=
| NwFrame (t : nw.DataFrame)
| PdFrame (t : pd.DataFrame).

(** The columns of a frame, whichever of the two it is. *)
Definition frame_table (f : frame) : pd.DataFrame :=
  match f with NwFrame t | PdFrame t => t end.

(** [str(f.columns)]: a list of names for a narwhals frame, an [Index] for
    a pandas frame. *)
Definition columns_str (f : frame) : string :=
  match f with
  | NwFrame t => repr_list (nw.columns t)
  | PdFrame t => "Index(" ++ repr_list (nw.columns t) ++ ", dtype='object')"
  end.

(** [f.with_columns(s)]: a method of the narwhals frame only. *)
Definition frame_with_columns (f : frame) (a : array_like) : result frame :=
  match f with
  | NwFrame t =>
      match nw.with_columns t a with
      | inl e => Raise e
      | inr t' => Ok (NwFrame t')
      end
  | PdFrame _ =>
      Raise (Exc AttributeError "object has no attribute 'with_columns'")
  end.

(** An instance of [Moment] or of one of its subclasses.  [data_loaded] is
    assigned by every constructor; the other attributes exist only once
    they have been assigned, [None] before. *)
Record instance : Type := mkInstance {
  cls : moment_class;
  data_loaded : bool;
  X : option matrix;
  _y : option array_like;
  tags : option frame;
  _gamma_descr : option pyobj;
  reduction_loss : option object_ref
}.

(** The state a method runs in: the object and what was printed. *)
Record world : Type := mkWorld { self : instance; stdout : list string }.

(** A method body: it may change the world and either returns or raises;
    what was changed before a [raise] stays changed. *)
Definition M (A : Type) : Type := world -> world * result A.

Definition ret {A} (a : A) : M A := fun w => (w, Ok a).

Definition raise {A} (e : exn) : M A := fun w => (w, Raise e).

Definition bind {A B} (m : M A) (k : A -> M B) : M B :=
  fun w =>
    match m w with
    | (w', inr a) => k a w'
    | (w', inl e) => (w', inl e)
    end.

Notation "x <- m ;; k" := (bind m (fun x => k))
  (at level 61, m at next level, right associativity).
Notation "m ;; k" := (bind m (fun _ => k))
  (at level 61, right associativity).

(** The outcome of a library call, inside a method. *)
Definition lift {A} (r : result A) : M A := fun w => (w, r).

(** [assert cond, msg] *)
Definition py_assert (cond : bool) (msg : string) : M unit :=
  if cond then ret tt else raise (Exc AssertionError msg).

(** [print(s)] *)
Definition print (s : string) : M unit :=
  fun w => (mkWorld (self w) (stdout w ++ [s]), Ok tt).

(** Reading [self.attr]. *)
Definition get_self : M instance := fun w => (w, Ok (self w)).

Definition getattr {A} (attr : instance -> option A) (name : string) : M A :=
  i <- get_self ;;
  match attr i with
  | Some v => ret v
  | None =>
      raise (Exc AttributeError
               ("'" ++ class_name (cls i) ++ "' object has no attribute '"
                  ++ name ++ "'"))
  end.

(** Assigning [self.attr = v]. *)
Definition update (f : instance -> instance) : M unit :=
  fun w => (mkWorld (f (self w)) (stdout w), Ok tt).

Definition set_data_loaded (v : bool) (i : instance) : instance :=
  mkInstance (cls i) v (X i) (_y i) (tags i) (_gamma_descr i) (reduction_loss i).

Definition set_X (v : matrix) (i : instance) : instance :=
  mkInstance (cls i) (data_loaded i) (Some v) (_y i) (tags i) (_gamma_descr i)
    (reduction_loss i).

Definition set__y (v : array_like) (i : instance) : instance :=
  mkInstance (cls i) (data_loaded i) (X i) (Some v) (tags i) (_gamma_descr i)
    (reduction_loss i).

Definition set_tags (v : frame) (i : instance) : instance :=
  mkInstance (cls i) (data_loaded i) (X i) (_y i) (Some v) (_gamma_descr i)
    (reduction_loss i).

Definition set__gamma_descr (v : pyobj) (i : instance) : instance :=
  mkInstance (cls i) (data_loaded i) (X i) (_y i) (tags i) (Some v)
    (reduction_loss i).

Definition set_reduction_loss (v : object_ref) (i : instance) : instance :=
  mkInstance (cls i) (data_loaded i) (X i) (_y i) (tags i) (_gamma_descr i)
    (Some v).

(** [Moment.__init__(self)], run on the object [object.__new__] made. *)
Definition new_object (c : moment_class) : instance :=
  mkInstance c false None None None None None.

Definition Moment_init (i : instance) : instance := set_data_loaded false i.

(** [LossMoment.__init__(self, loss)] *)
Definition LossMoment_init (loss : object_ref) (i : instance) : instance :=
  set_reduction_loss loss (Moment_init i).

(** The calls [Moment()], [ClassificationMoment()] and [LossMoment(loss)];
    [ClassificationMoment] inherits [__init__] from [Moment]. *)
Definition new_Moment : instance := Moment_init (new_object Moment).

Definition new_ClassificationMoment : instance :=
  Moment_init (new_object ClassificationMoment).

Definition new_LossMoment (loss : object_ref) : instance :=
  LossMoment_init loss (new_object LossMoment).

(** [Moment.load_data(self, X, y, *, sensitive_features=None)], inherited
    by both subclasses. *)
Definition load_data (X0 : matrix) (y : array_like)
    (sensitive_features : option array_like) : M unit :=
  i <- get_self ;;
  py_assert (negb (data_loaded i)) "data can be loaded only once" ;;
  sensitive_features <-
    match sensitive_features with
    | Some sf =>
        sf' <- lift (nw.from_native_series_only sf) ;;
        py_assert (isinstance_nw_Series sf') "" ;;
        ret (Some sf')
    | None => ret None
    end ;;
  update (set_X (from_native_X X0)) ;;
  update (set__y (nw.from_native_pass_through y)) ;;
  y' <- getattr _y "_y" ;;
  labelled <- lift (nw.alias y' _LABEL) ;;
  labels_frame <- lift (nw.to_frame labelled) ;;
  update (set_tags (NwFrame labels_frame)) ;;
  t <- getattr tags "tags" ;;
  print (columns_str t) ;;
  match sensitive_features with
  | Some sf =>
      t <- getattr tags "tags" ;;
      g <- lift (nw.alias sf _GROUP_ID) ;;
      t' <- lift (frame_with_columns t g) ;;
      update (set_tags t')
  | None => ret tt
  end ;;
  update (set_data_loaded true) ;;
  update (set__gamma_descr PyNone).

(** The property [Moment.total_samples]: [self.X.shape[0]]. *)
Definition total_samples : M nat :=
  x <- getattr X "X" ;;
  ret (shape0 x).

(** The property [Moment._y_as_series]. *)
Definition _y_as_series : M array_like := getattr _y "_y".

(** The four numerical operations of the base class; none of the two
    subclasses overrides them.  The arguments are not looked at. *)
Definition gamma {P : Type} (predictor : P) : M pyvalue :=
  raise (Exc NotImplementedError "").

Definition bound : M pyvalue :=
  raise (Exc NotImplementedError "").

Definition project_lambda {L : Type} (lambda_vec : L) : M pyvalue :=
  raise (Exc NotImplementedError "").

Definition signed_weights {L : Type} (lambda_vec : L) : M pyvalue :=
  raise (Exc NotImplementedError "").

(** [_moment_type], as each class defines it: the base class returns (does
    not raise) a new [NotImplementedError()], each subclass returns its own
    class object. *)
Definition _moment_type : M pyvalue :=
  i <- get_self ;;
  match cls i with
  | Moment => ret (V_exc_instance (Exc NotImplementedError ""))
  | ClassificationMoment => ret (V_class ClassificationMoment)
  | LossMoment => ret (V_class LossMoment)
  end.

(** [nw.to_native(obj, strict=False)] on a Series: a narwhals Series is
    unwrapped to the native one, anything else is handed back as it is. *)
Definition to_native_series (a : array_like) : array_like :=
  match a with
  | NwSeries s => PdSeries s
  | PdSeries s => PdSeries s
  | NdArray c => NdArray c
  end.

(** [nw.to_native(obj, strict=False)] on the feature array, which is no
    narwhals object and is handed back as it is. *)
Definition to_native_X (m : matrix) : matrix := m.

(** [nw.to_native(obj, strict=False)] on a frame: a narwhals DataFrame is
    unwrapped to the pandas DataFrame inside it, a pandas DataFrame is
    handed back as it is. *)
Definition to_native_frame (f : frame) : frame :=
  match f with
  | NwFrame t => PdFrame t
  | PdFrame t => PdFrame t
  end.

(** [Moment._to_native_everything(self)] *)
Definition _to_native_everything : M unit :=
  x <- getattr X "X" ;;
  update (set_X (to_native_X x)) ;;
  y <- getattr _y "_y" ;;
  update (set__y (to_native_series y)) ;;
  t <- getattr tags "tags" ;;
  update (set_tags (to_native_frame t)).

(* ===================================================================== *)
(** * Vocabulary of the properties *)
(* ===================================================================== *)

(** The feature vector carries no name, the name [None], or a string. *)
Definition name_absent_or_str (fv : array_like) : bool :=
  match intrinsic_name fv with
  | None => true
  | Some v => is_None v || isinstance_str v
  end.

(** Python's [a < b] where it holds: between two integers and between two
    strings. *)
Definition obj_lt (a b : objval) : Prop :=
  match a, b with
  | OInt x, OInt y => (x < y)%Z
  | OStr s, OStr t => String_as_OT.lt s t
  | _, _ => False
  end.

(** The entries of a column increase strictly: integers by [<], strings
    by the lexical order on their characters. *)
Definition strictly_increasing (c : column) : Prop :=
  match c with
  | IntCol l => StronglySorted (fun a b => (int64_val a < int64_val b)%Z) l
  | StrCol l => StronglySorted String_as_OT.lt l
  | ObjCol l => StronglySorted obj_lt l
  end.

(** [np.unique] returns on the values of the feature vector: they are an
    [int64] or a string array, or an [object] array Python can sort. *)
Definition can_sort (fv : array_like) : bool :=
  match data_of fv with
  | ObjCol l => np.sortable l
  | _ => true
  end.

(** The constructor has a name to give: an explicit one, or the feature
    vector carries a string, [None] or no name. *)
Definition name_resolves (name : option string) (fv : array_like) : bool :=
  match name with
  | Some _ => true
  | None => name_absent_or_str fv
  end.

(** The message of the [ValueError] for the Series name [v]. *)
Definition name_not_string_message (v : pyobj) : string :=
  "Series name must be a string. Value '" ++ str v
    ++ "' was of type " ++ str_type (type v).

(** The name the specification gives a group feature: the explicit name,
    else the carried name when it is a string, else base name and index. *)
Definition spec_name (base_name : string) (index : Z) (name : option string)
    (carried : option pyobj) : string :=
  match name with
  | Some n => n
  | None =>
      match carried with
      | Some (PyStr s) => s
      | _ => base_name ++ str (PyInt index)
      end
  end.

(** The exception of a second [load_data]. *)
Definition already_loaded : exn :=
  Exc AssertionError "data can be loaded only once".

(** The world a fresh object is used in. *)
Definition fresh (i : instance) : world := mkWorld i [].

(** The feature vector carries no name, or the name [None]. *)
Definition unnamed (fv : array_like) : bool :=
  match intrinsic_name fv with
  | None => true
  | Some v => is_None v
  end.

(** The feature vector is a Series, native or wrapped by narwhals. *)
Definition is_series (a : array_like) : bool :=
  isinstance_nw_Series a || isinstance_pd_Series a.

(** The Series narwhals makes of a Series it is given. *)
Definition wrapped (a : array_like) : array_like :=
  nw.from_native_pass_through a.

(** One use of an object by a caller: a method call, with its arguments.
    The numerical operations are called with [tt] for the argument they do
    not look at. *)
Inductive method_call : Type :=
| call_load_data (X0 : matrix) (y : array_like) (sf : option array_like)
| call__to_native_everything
| call_total_samples
| call__y_as_series
| call_gamma
| call_bound
| call_project_lambda
| call_signed_weights
| call__moment_type.

(** The world a method leaves, whether it returned or raised. *)
Definition after {A} (m : M A) (w : world) : world := fst (m w).

Definition perform (c : method_call) (w : world) : world :=
  match c with
  | call_load_data X0 y sf => after (load_data X0 y sf) w
  | call__to_native_everything => after _to_native_everything w
  | call_total_samples => after total_samples w
  | call__y_as_series => after _y_as_series w
  | call_gamma => after (gamma tt) w
  | call_bound => after bound w
  | call_project_lambda => after (project_lambda tt) w
  | call_signed_weights => after (signed_weights tt) w
  | call__moment_type => after _moment_type w
  end.

(** A caller that makes the calls [cs] one after the other and goes on
    after an exception. *)
Definition perform_all (cs : list method_call) (w : world) : world :=
  fold_left (fun w c => perform c w) cs w.


(** The objects the three constructors of the file make. *)
Definition constructed (i : instance) : Prop :=
  i = new_Moment \/ i = new_ClassificationMoment
  \/ exists loss, i = new_LossMoment loss.

(** Unfold a call of [load_data] down to the library calls. *)
Ltac run_load_data :=
  unfold load_data, bind, get_self, getattr, py_assert, update, print, lift,
    ret, raise, Ok, Raise, bind, get_self; cbn.

(* ===================================================================== *)
(** * Facts about [np.unique] *)
(* ===================================================================== *)

Section UniqueFacts.
Variable A : Type.
Variable cmp : A -> A -> comparison.

Let lt (x y : A) : Prop := cmp x y = Lt.
Let le (x y : A) : Prop := cmp x y <> Gt.

Hypothesis cmp_spec : forall x y, CompSpec eq lt x y (cmp x y).
Hypothesis lt_irrefl : forall x, ~ lt x x.
Hypothesis lt_trans : forall x y z, lt x y -> lt y z -> lt x z.

Lemma cmp_Eq x y : cmp x y = Eq -> x = y.
Proof. intros H. destruct (cmp_spec x y); congruence. Qed.

Lemma cmp_Gt x y : cmp x y = Gt -> lt y x.
Proof. intros H. destruct (cmp_spec x y); congruence. Qed.

Lemma lt_le x y : lt x y -> le x y.
Proof. unfold lt, le. congruence. Qed.

Lemma le_cases x y : le x y -> x = y \/ lt x y.
Proof.
  unfold le. intros H. destruct (cmp_spec x y); auto. congruence.
Qed.

Lemma lt_not_Gt x y : lt x y -> cmp y x <> Lt.
Proof. intros H H'. exact (lt_irrefl x (lt_trans _ _ _ H H')). Qed.

Lemma le_lt_trans x y z : le x y -> lt y z -> lt x z.
Proof.
  intros H1 H2. destruct (le_cases _ _ H1) as [->|H]; eauto.
Qed.

Lemma le_trans x y z : le x y -> le y z -> le x z.
Proof.
  intros H1 H2. destruct (le_cases _ _ H2) as [<-|H]; auto.
  apply lt_le. eapply le_lt_trans; eauto.
Qed.

Lemma Gt_le x y : cmp x y = Gt -> le y x.
Proof. intros H. apply lt_le, cmp_Gt, H. Qed.

Lemma In_insert z x l : In z (np.insert A cmp x l) <-> z = x \/ In z l.
Proof.
  induction l as [|y l IH]; cbn.
  - intuition congruence.
  - destruct (cmp x y); cbn; rewrite ?IH; intuition congruence.
Qed.

Lemma In_sort z l : In z (np.sort A cmp l) <-> In z l.
Proof.
  induction l as [|x l IH]; cbn; [tauto|].
  rewrite In_insert, IH. intuition congruence.
Qed.

Lemma insert_sorted x l :
  StronglySorted le l -> StronglySorted le (np.insert A cmp x l).
Proof.
  induction 1 as [|y l Hs IH Hall]; cbn.
  - repeat constructor.
  - destruct (cmp x y) eqn:E.
    + constructor; [constructor; assumption|].
      assert (Hxy : le x y) by (unfold le; congruence).
      constructor; [assumption|].
      eapply Forall_impl; [|exact Hall]. intros a Ha. eapply le_trans; eauto.
    + constructor; [constructor; assumption|].
      assert (Hxy : le x y) by (unfold le; congruence).
      constructor; [assumption|].
      eapply Forall_impl; [|exact Hall]. intros a Ha. eapply le_trans; eauto.
    + constructor; [assumption|].
      apply Forall_forall. intros a Ha. apply In_insert in Ha.
      destruct Ha as [->|Ha].
      * apply Gt_le, E.
      * rewrite Forall_forall in Hall. auto.
Qed.

Lemma sort_sorted l : StronglySorted le (np.sort A cmp l).
Proof.
  induction l as [|x l IH]; cbn; [constructor|]. apply insert_sorted, IH.
Qed.

Lemma keep_changes_spec l : forall prev,
  StronglySorted le l -> Forall (le prev) l ->
  Forall (lt prev) (np.keep_changes A cmp prev l)
  /\ StronglySorted lt (np.keep_changes A cmp prev l)
  /\ (forall z, In z (np.keep_changes A cmp prev l) -> In z l)
  /\ (forall z, In z l -> z = prev \/ In z (np.keep_changes A cmp prev l)).
Proof.
  induction l as [|y l IH]; intros prev Hs Hall; cbn.
  - repeat split; try constructor; tauto.
  - inversion Hs as [|? ? Hs' Hy]; subst.
    inversion Hall as [|? ? Hpy Hpl]; subst.
    destruct (cmp prev y) eqn:E.
    + apply cmp_Eq in E. subst y.
      destruct (IH prev Hs' Hpl) as (H1 & H2 & H3 & H4).
      repeat split; auto.
      intros z [->|Hz]; auto.
    + destruct (IH y Hs' Hy) as (H1 & H2 & H3 & H4).
      repeat split.
      * constructor; [exact E|].
        eapply Forall_impl; [|exact H1]. intros a Ha. eapply lt_trans; eauto.
      * constructor; assumption.
      * intros z [->|Hz]; [left; reflexivity|right; auto].
      * intros z [->|Hz]; [right; left; reflexivity|].
        destruct (H4 z Hz) as [->|Hz']; right; [left|right]; auto.
    + exfalso. apply Hpy, E.
Qed.

Lemma unique_list_spec l :
  StronglySorted lt (np.unique_list A cmp l)
  /\ forall z, In z (np.unique_list A cmp l) <-> In z l.
Proof.
  unfold np.unique_list, np.drop_repeats.
  pose proof (sort_sorted l) as Hs.
  assert (Hin : forall z, In z (np.sort A cmp l) <-> In z l)
    by (intros; apply In_sort).
  destruct (np.sort A cmp l) as [|x s].
  - split; [constructor|]. intros z. rewrite <- Hin. tauto.
  - inversion Hs as [|? ? Hs' Hx]; subst.
    destruct (keep_changes_spec s x Hs' Hx) as (H1 & H2 & H3 & H4).
    split; [constructor; assumption|].
    intros z. rewrite <- Hin. cbn. split.
    + intros [->|Hz]; auto.
    + intros [->|Hz]; auto. destruct (H4 z Hz) as [->|Hz']; auto.
Qed.

Lemma sorted_lt_NoDup l : StronglySorted lt l -> NoDup l.
Proof.
  induction 1 as [|x l Hs IH Hall]; constructor; auto.
  intros Hin. rewrite Forall_forall in Hall. exact (lt_irrefl x (Hall x Hin)).
Qed.

End UniqueFacts.

Lemma int64_val_inj (a b : int64) : int64_val a = int64_val b -> a = b.
Proof.
  destruct a as [x Hx], b as [y Hy]. cbn. intros <-. f_equal.
  apply Eqdep_dec.UIP_dec, bool_dec.
Qed.

Lemma unique_int64_spec (l : list int64) :
  StronglySorted (fun a b => (int64_val a < int64_val b)%Z)
    (np.unique_list int64 np.int64_compare l)
  /\ forall z, In z (np.unique_list int64 np.int64_compare l) <-> In z l.
Proof.
  apply unique_list_spec; unfold np.int64_compare;
    first [ intros x y;
            destruct (Z.compare_spec (int64_val x) (int64_val y));
            constructor; now auto using int64_val_inj
          | intros x; now apply Z.lt_irrefl
          | intros x y z; now apply Z.lt_trans ].
Qed.

Lemma unique_string_spec (l : list string) :
  StronglySorted String_as_OT.lt (np.unique_list string String_as_OT.compare l)
  /\ forall z, In z (np.unique_list string String_as_OT.compare l) <-> In z l.
Proof.
  apply unique_list_spec;
    first [ exact String_as_OT.compare_spec
          | exact (@StrictOrder_Irreflexive _ _ String_as_OT.lt_strorder)
          | exact (@StrictOrder_Transitive _ _ String_as_OT.lt_strorder) ].
Qed.

Lemma obj_compare_spec (x y : objval) :
  CompSpec eq (fun a b => np.obj_compare a b = Lt) x y (np.obj_compare x y).
Proof.
  destruct x as [|x|s], y as [|y|t]; cbn; try (constructor; reflexivity).
  - destruct (Z.compare_spec x y) as [E|E|E]; constructor;
      [congruence | exact E | exact E].
  - destruct (String_as_OT.compare_spec s t) as [E|E|E]; constructor;
      [congruence | exact E | exact E].
Qed.

Lemma obj_compare_irrefl (x : objval) : np.obj_compare x x <> Lt.
Proof.
  destruct x as [|x|s]; cbn; try discriminate.
  - apply Z.lt_irrefl.
  - exact (@StrictOrder_Irreflexive _ _ String_as_OT.lt_strorder s).
Qed.

Lemma obj_compare_trans (x y z : objval) :
  np.obj_compare x y = Lt -> np.obj_compare y z = Lt -> np.obj_compare x z = Lt.
Proof.
  destruct x as [|x|s], y as [|y|t], z as [|z|u]; cbn;
    try discriminate; try reflexivity.
  - apply Z.lt_trans.
  - exact (@StrictOrder_Transitive _ _ String_as_OT.lt_strorder s t u).
Qed.

Lemma unique_obj_spec (l : list objval) :
  StronglySorted (fun a b => np.obj_compare a b = Lt)
    (np.unique_list objval np.obj_compare l)
  /\ forall z, In z (np.unique_list objval np.obj_compare l) <-> In z l.
Proof.
  apply unique_list_spec;
    first [ exact obj_compare_spec
          | exact obj_compare_irrefl
          | exact obj_compare_trans ].
Qed.

Lemma StronglySorted_in_impl {A} (R R' : A -> A -> Prop) (l : list A) :
  (forall a b, In a l -> In b l -> R a b -> R' a b) ->
  StronglySorted R l -> StronglySorted R' l.
Proof.
  intros H Hs. induction Hs as [|x l Hs IH Hall]; constructor.
  - apply IH. intros a b Ha Hb. apply H; right; assumption.
  - rewrite Forall_forall in *. intros b Hb.
    apply H; [left; reflexivity | right; assumption | auto].
Qed.

(** On a sortable [object] array the sorted classes increase by Python's
    own [<]. *)
Lemma unique_obj_sorted (l : list objval) :
  np.sortable l = true ->
  StronglySorted obj_lt (np.unique_list objval np.obj_compare l).
Proof.
  intros Hs. destruct (unique_obj_spec l) as [Hsort Hin].
  unfold np.sortable in Hs.
  apply orb_true_iff in Hs. destruct Hs as [Hs|Hs];
    [apply orb_true_iff in Hs; destruct Hs as [Hs|Hs]|].
  - apply Nat.leb_le in Hs.
    assert (Hlen : length (np.unique_list objval np.obj_compare l) <= 1).
    { etransitivity; [|exact Hs]. apply NoDup_incl_length.
      - eapply sorted_lt_NoDup; [exact obj_compare_irrefl|exact Hsort].
      - intros z Hz. apply Hin, Hz. }
    destruct (np.unique_list objval np.obj_compare l) as [|x [|y u]];
      cbn in Hlen; try lia; repeat constructor.
  - rewrite forallb_forall in Hs.
    eapply StronglySorted_in_impl; [|exact Hsort].
    intros a b Ha Hb. apply Hin, Hs in Ha. apply Hin, Hs in Hb.
    destruct a, b; cbn in *; try discriminate. auto.
  - rewrite forallb_forall in Hs.
    eapply StronglySorted_in_impl; [|exact Hsort].
    intros a b Ha Hb. apply Hin, Hs in Ha. apply Hin, Hs in Hb.
    destruct a, b; cbn in *; try discriminate. auto.
Qed.

Lemma In_map_inj {A B} (f : A -> B) (l l' : list A) :
  (forall a, In a l <-> In a l') ->
  forall b, In b (map f l) <-> In b (map f l').
Proof.
  intros H b. rewrite !in_map_iff.
  split; intros (a & Ha & Hin); exists a; split; auto; apply H; auto.
Qed.

(** What [np.unique] returns, when it returns: the values of the array,
    each once, in strictly increasing order. *)
Lemma unique_col_spec (c c' : column) :
  np.unique_col c = Ok c' ->
  strictly_increasing c'
  /\ NoDup (col_items c')
  /\ forall v, In v (col_items c') <-> In v (col_items c).
Proof.
  unfold Ok, Raise. destruct c as [l|l|l]; cbn.
  - intros H. injection H as <-. cbn.
    destruct (unique_int64_spec l) as [Hs Hin].
    split; [exact Hs|split].
    + apply Finite.Injective_map_NoDup.
      * intros a b E. injection E as E. apply int64_val_inj, E.
      * eapply sorted_lt_NoDup; [|exact Hs]. intros x. apply Z.lt_irrefl.
    + apply In_map_inj, Hin.
  - intros H. injection H as <-. cbn.
    destruct (unique_string_spec l) as [Hs Hin].
    split; [exact Hs|split].
    + apply Finite.Injective_map_NoDup; [intros a b; congruence|].
      eapply sorted_lt_NoDup; [|exact Hs].
      exact (@StrictOrder_Irreflexive _ _ String_as_OT.lt_strorder).
    + apply In_map_inj, Hin.
  - destruct (np.sortable l) eqn:Hsrt; [|discriminate].
    intros H. injection H as <-. cbn.
    destruct (unique_obj_spec l) as [Hs Hin].
    split; [apply unique_obj_sorted, Hsrt|split].
    + apply Finite.Injective_map_NoDup.
      * intros [|x|s] [|y|t]; cbn; congruence.
      * eapply sorted_lt_NoDup; [exact obj_compare_irrefl|exact Hs].
    + apply In_map_inj, Hin.
Qed.

(** [np.unique] returns exactly on the vectors [can_sort] accepts, and
    raises [TypeError] on the others. *)
Lemma unique_returns (fv : array_like) :
  can_sort fv = true -> exists c, np.unique fv = Ok c.
Proof.
  unfold can_sort, np.unique, np.unique_col.
  destruct (data_of fv) as [l|l|l]; try (eexists; reflexivity).
  intros ->. eexists; reflexivity.
Qed.

Lemma unique_raises (fv : array_like) :
  can_sort fv = false ->
  exists e, np.unique fv = Raise e /\ exc_type e = TypeError.
Proof.
  unfold can_sort, np.unique, np.unique_col.
  destruct (data_of fv) as [l|l|l]; try discriminate.
  intros ->. eexists; split; reflexivity.
Qed.

(* ===================================================================== *)
(** * Properties of [GroupFeature] *)
(* ===================================================================== *)

Lemma append_empty (s : string) : s ++ "" = s.
Proof. induction s as [|c s IH]; cbn; congruence. Qed.

Lemma format_default (base_name i : string) :
  format "{0}{1}" [base_name; i] = base_name ++ i.
Proof. cbn. now rewrite append_empty. Qed.

Lemma format_not_string (v t : string) :
  format _SERIES_NAME_NOT_STRING [v; t]
  = "Series name must be a string. Value '" ++ v ++ "' was of type " ++ t.
Proof. cbn. now rewrite append_empty. Qed.

(** The raw feature the constructor stores holds the data it was given. *)
Lemma raw_feature_data (fv : array_like) :
  data_of (match fv with NwSeries s => to_pandas s | _ => fv end) = data_of fv.
Proof. destruct fv; reflexivity. Qed.

Lemma raw_feature_native (fv : array_like) :
  match fv with NwSeries s => to_pandas s | _ => fv end = to_native_series fv.
Proof. destruct fv; reflexivity. Qed.

(** An exception of [np.unique] is the exception of the constructor,
    whatever the names. *)
Lemma GroupFeature_init_unsortable
    (base_name : string) (fv : array_like) (index : Z) (name : option string)
    (e : exn) :
  np.unique fv = Raise e ->
  GroupFeature_init base_name fv index name = Raise e.
Proof.
  unfold GroupFeature_init, np.unique. rewrite raw_feature_data.
  intros ->. reflexivity.
Qed.

(** When [np.unique] returns and there is a name to give, the constructor
    returns, with that name. *)
Lemma GroupFeature_init_returns
    (base_name : string) (fv : array_like) (index : Z) (name : option string)
    (c : column) :
  np.unique fv = Ok c ->
  name_resolves name fv = true ->
  GroupFeature_init base_name fv index name
  = Ok (mkGroupFeature (to_native_series fv) c
          (spec_name base_name index name (intrinsic_name fv))).
Proof.
  unfold GroupFeature_init, np.unique, name_resolves, name_absent_or_str,
    spec_name.
  rewrite raw_feature_data, raw_feature_native, format_default.
  intros -> Hn. cbv iota beta.
  destruct name as [n|]; [reflexivity|].
  destruct fv as [s|s|a]; cbn in *; try reflexivity;
    destruct (pd.name s) as [|b|z|t|k t]; cbn in *;
    try discriminate; reflexivity.
Qed.

(** When [np.unique] returns, no name is passed and the Series has a name
    that is neither [None] nor a string, the constructor raises the
    [ValueError]. *)
Lemma GroupFeature_init_rejects
    (base_name : string) (fv : array_like) (index : Z) (c : column) (v : pyobj) :
  np.unique fv = Ok c ->
  intrinsic_name fv = Some v ->
  is_None v = false ->
  isinstance_str v = false ->
  GroupFeature_init base_name fv index None
  = Raise (Exc ValueError (name_not_string_message v)).
Proof.
  unfold GroupFeature_init, np.unique, name_not_string_message.
  rewrite raw_feature_data, raw_feature_native.
  intros -> Hn Hnone Hstr. cbv iota beta.
  destruct fv as [s|s|a]; cbn in Hn; try discriminate;
    injection Hn as Hn; cbn [to_native_series]; cbv iota beta;
    rewrite Hn, Hnone, Hstr; cbn [negb]; cbv iota;
    now rewrite format_not_string.
Qed.

(** The two examples of the specification. *)
Example sens_2_unnamed :
  GroupFeature_init "sens_" (NdArray (StrCol ["a"; "b"; "a"; "c"])) 2 None
  = Ok (mkGroupFeature (NdArray (StrCol ["a"; "b"; "a"; "c"]))
          (StrCol ["a"; "b"; "c"]) "sens_2").
Proof. reflexivity. Qed.

Example gender_over_carried_name :
  GroupFeature_init "sens_"
    (PdSeries (pd.mkSeries (PyStr "sex") (StrCol ["a"; "b"; "a"; "c"]))) 2
    (Some "gender")
  = Ok (mkGroupFeature
          (PdSeries (pd.mkSeries (PyStr "sex") (StrCol ["a"; "b"; "a"; "c"])))
          (StrCol ["a"; "b"; "c"]) "gender").
Proof. reflexivity. Qed.

(** C2, as stated, fails: a Series named by the integer [0] is accepted
    when an explicit name comes with it. *)
Lemma C2_explicit_name_accepts_int_name :
  let fv := PdSeries (pd.mkSeries (PyInt 0) (StrCol ["f"; "m"; "f"])) in
  intrinsic_name fv = Some (PyInt 0)
  /\ is_None (PyInt 0) = false
  /\ isinstance_str (PyInt 0) = false
  /\ GroupFeature_init "sensitive_feature_" fv 0 (Some "gender")
     = Ok (mkGroupFeature fv (StrCol ["f"; "m"]) "gender").
Proof. repeat split. Qed.

(** C2 (amended): for every feature vector that is a Series whose name is
    neither [None] nor a string (an integer, a boolean, an object of any
    other class) and whose values [np.unique] can sort: without explicit
    name the constructor raises [ValueError], and the message shows the
    name and its type, the name is not coerced; with an explicit name,
    whichever it is, the name of the Series is not looked at and the
    constructor returns the feature under the explicit name. *)
Theorem C2_non_string_name_rejected
    (base_name : string) (fv : array_like) (index : Z) (v : pyobj) :
  intrinsic_name fv = Some v ->
  is_None v = false ->
  isinstance_str v = false ->
  can_sort fv = true ->
  exists c,
    np.unique fv = Ok c
    /\ GroupFeature_init base_name fv index None
       = Raise (Exc ValueError
           ("Series name must be a string. Value '" ++ str v
              ++ "' was of type " ++ str_type (type v)))
    /\ forall n,
         GroupFeature_init base_name fv index (Some n)
         = Ok (mkGroupFeature (to_native_series fv) c n).
Proof.
  intros Hn Hnone Hstr Hsort.
  destruct (unique_returns fv Hsort) as [c Hc].
  exists c. split; [exact Hc|]. split.
  - exact (GroupFeature_init_rejects base_name fv index c v Hc Hn Hnone Hstr).
  - intros n.
    exact (GroupFeature_init_returns base_name fv index (Some n) c Hc eq_refl).
Qed.

Lemma C2_non_string_name_rejected_witness :
  let fv := NwSeries (pd.mkSeries (PyOther "float" "1.5")
                        (IntCol [i64 1; i64 0; i64 1])) in
  GroupFeature_init "sf_" fv 3 None
  = Raise (Exc ValueError
      "Series name must be a string. Value '1.5' was of type <class 'float'>")
  /\ GroupFeature_init "sf_" fv 3 (Some "gender")
     = Ok (mkGroupFeature (to_native_series fv) (IntCol [i64 0; i64 1]) "gender").
Proof.
  cbv zeta.
  destruct (C2_non_string_name_rejected "sf_"
              (NwSeries (pd.mkSeries (PyOther "float" "1.5")
                           (IntCol [i64 1; i64 0; i64 1])))
              3 (PyOther "float" "1.5") eq_refl eq_refl eq_refl eq_refl)
    as (c & Hc & Hnone & Hsome).
  split; [exact Hnone|].
  rewrite (Hsome "gender"). injection Hc as <-. reflexivity.
Defined.

(** C5: the constructor gives the name of the priority order.  Whenever
    [np.unique] returns on the values and there is a name to give (an
    explicit name, or a feature vector carrying a string, [None] or no
    name), the constructor returns, and the name of the feature is the
    explicit name if there is one, else the name the feature vector carries
    if that is a string, else base name followed by index. *)
Theorem C5_name_priority
    (base_name : string) (fv : array_like) (index : Z) (name : option string) :
  can_sort fv = true ->
  name_resolves name fv = true ->
  exists g,
    GroupFeature_init base_name fv index name = Ok g
    /\ name_ g = spec_name base_name index name (intrinsic_name fv)
    /\ name_ g
       = match name with
         | Some n => n
         | None =>
             match intrinsic_name fv with
             | Some (PyStr s) => s
             | _ => base_name ++ str (PyInt index)
             end
         end.
Proof.
  intros Hsort Hname.
  destruct (unique_returns fv Hsort) as [c Hc].
  eexists. split; [exact (GroupFeature_init_returns _ _ _ _ _ Hc Hname)|].
  split; reflexivity.
Qed.

Lemma C5_name_priority_witness :
  let named := PdSeries (pd.mkSeries (PyStr "sex") (StrCol ["a"; "b"; "a"; "c"])) in
  let unnamed_fv := NdArray (StrCol ["a"; "b"; "a"; "c"]) in
  (exists g, GroupFeature_init "sens_" named 2 (Some "gender") = Ok g
             /\ name_ g = "gender")
  /\ (exists g, GroupFeature_init "sens_" named 2 None = Ok g
                /\ name_ g = "sex")
  /\ (exists g, GroupFeature_init "sens_" unnamed_fv 2 None = Ok g
                /\ name_ g = "sens_2").
Proof.
  cbv zeta. repeat split.
  - destruct (C5_name_priority "sens_"
                (PdSeries (pd.mkSeries (PyStr "sex") (StrCol ["a"; "b"; "a"; "c"])))
                2 (Some "gender") eq_refl eq_refl) as (g & Hg & _ & Hn).
    exists g. split; assumption.
  - destruct (C5_name_priority "sens_"
                (PdSeries (pd.mkSeries (PyStr "sex") (StrCol ["a"; "b"; "a"; "c"])))
                2 None eq_refl eq_refl) as (g & Hg & _ & Hn).
    exists g. split; assumption.
  - destruct (C5_name_priority "sens_" (NdArray (StrCol ["a"; "b"; "a"; "c"]))
                2 None eq_refl eq_refl) as (g & Hg & _ & Hn).
    exists g. split; assumption.
Defined.




(* ===================================================================== *)
(** * Properties of [Moment] *)
(* ===================================================================== *)

(** On a loaded object [load_data] stops at its first statement. *)
Lemma load_data_loaded (X0 : matrix) (y : array_like)
    (sf : option array_like) (w : world) :
  data_loaded (self w) = true ->
  load_data X0 y sf w = (w, Raise already_loaded).
Proof.
  intros H. unfold load_data, bind, get_self, py_assert, Ok. cbn.
  rewrite H. reflexivity.
Qed.

(** A sensitive feature that is no Series stops [load_data] before the
    first assignment. *)
Lemma load_data_not_series (X0 : matrix) (y : array_like) (c : column)
    (w : world) :
  data_loaded (self w) = false ->
  exists e, load_data X0 y (Some (NdArray c)) w = (w, Raise e)
            /\ exc_type e = TypeError.
Proof.
  intros H. unfold load_data, bind, get_self, py_assert, Ok. cbn.
  rewrite H. cbn. eexists. split; reflexivity.
Qed.

(** What a call of [load_data] leaves behind, by outcome: after a raise
    [data_loaded], the class, the cached description and the loss are what
    they were; after a return every attribute is assigned. *)
Lemma load_data_outcome (X0 : matrix) (y : array_like)
    (sf : option array_like) (w w' : world) (r : result unit) :
  load_data X0 y sf w = (w', r) ->
  match r with
  | inl e =>
      data_loaded (self w') = data_loaded (self w)
      /\ cls (self w') = cls (self w)
      /\ _gamma_descr (self w') = _gamma_descr (self w)
      /\ reduction_loss (self w') = reduction_loss (self w)
  | inr _ =>
      data_loaded (self w) = false
      /\ data_loaded (self w') = true
      /\ cls (self w') = cls (self w)
      /\ X (self w') = Some X0
      /\ _y (self w') = Some (NwSeries (pd.mkSeries
                                 match y with
                                 | PdSeries s | NwSeries s => pd.name s
                                 | NdArray _ => PyNone
                                 end (data_of y)))
      /\ isinstance_nw_Series y || isinstance_pd_Series y = true
      /\ _gamma_descr (self w') = Some PyNone
      /\ reduction_loss (self w') = reduction_loss (self w)
      /\ exists t, tags (self w') = Some (NwFrame t)
                   /\ nw.get_column t _LABEL = Some (data_of y)
                   /\ nw.height t = len y
  end.
Proof.
  destruct w as [[c dl x0 y0 t0 g0 l0] out].
  run_load_data. destruct dl; cbn.
  { intros H; injection H as <- <-. cbn. auto. }
  destruct sf as [[s|s|a]|]; cbn;
    try (intros H; injection H as <- <-; cbn; now auto).
  all: destruct y as [sy|sy|ay]; cbn;
    try (intros H; injection H as <- <-; cbn; now auto).
  all: try (destruct (Nat.eqb (col_len (pd.values s)) (col_len (pd.values sy)));
            [|destruct (Nat.eqb (col_len (pd.values s)) 1)]; cbn).
  all: intros H; injection H as <- <-; cbn.
  all: repeat split; eauto.
  all: try (destruct sy as [nm vs]; reflexivity).
  all: eexists; repeat split; try reflexivity.
Qed.

(** The tags table after a load with a sensitive feature as long as the
    labels. *)
Lemma load_data_tags_group_id (X0 : matrix) (y s : array_like) (w w' : world) :
  load_data X0 y (Some s) w = (w', Ok tt) ->
  len s = len y ->
  tags (self w')
  = Some (NwFrame [(_LABEL, data_of y); (_GROUP_ID, data_of s)]).
Proof.
  destruct w as [[c dl x0 y0 t0 g0 l0] out].
  run_load_data. destruct dl; cbn; [discriminate|].
  unfold len. intros H Hlen.
  destruct s as [s|s|a]; cbn in *; try discriminate;
    destruct y as [sy|sy|ay]; cbn in *; try discriminate;
    rewrite Hlen, Nat.eqb_refl in H; cbn in H;
    injection H as <-; reflexivity.
Qed.

(** The tags table after a load without sensitive feature. *)
Lemma load_data_tags_label (X0 : matrix) (y : array_like) (w w' : world) :
  load_data X0 y None w = (w', Ok tt) ->
  tags (self w') = Some (NwFrame [(_LABEL, data_of y)]).
Proof.
  destruct w as [[c dl x0 y0 t0 g0 l0] out].
  run_load_data. destruct dl; cbn; [discriminate|].
  destruct y as [sy|sy|ay]; cbn; try discriminate;
    intros H; injection H as <-; reflexivity.
Qed.

(** C1: once [load_data] has returned on an object, every further call
    raises [AssertionError("data can be loaded only once")] and leaves the
    object (and the output) as the first call left them. *)
Theorem C1_second_load_rejected
    (X1 X2 : matrix) (y1 y2 : array_like) (sf1 sf2 : option array_like)
    (w0 w1 : world) :
  load_data X1 y1 sf1 w0 = (w1, Ok tt) ->
  load_data X2 y2 sf2 w1 = (w1, Raise already_loaded)
  /\ exc_type already_loaded = AssertionError.
Proof.
  intros H. split; [|reflexivity].
  apply load_data_loaded.
  apply load_data_outcome in H. cbn in H. tauto.
Qed.

Lemma C1_second_load_rejected_witness :
  let y := PdSeries (pd.mkSeries PyNone (IntCol [i64 0; i64 1; i64 0])) in
  let s := PdSeries (pd.mkSeries (PyStr "sex") (StrCol ["f"; "m"; "f"])) in
  let w1 := fst (load_data [[1]; [2]; [3]]%Z y (Some s) (fresh new_Moment)) in
  load_data [[4]; [5]]%Z (NdArray (IntCol [i64 1; i64 1])) None w1
  = (w1, Raise already_loaded).
Proof.
  cbv zeta.
  refine (proj1 (C1_second_load_rejected [[1]; [2]; [3]]%Z [[4]; [5]]%Z
            (PdSeries (pd.mkSeries PyNone (IntCol [i64 0; i64 1; i64 0])))
            (NdArray (IntCol [i64 1; i64 1]))
            (Some (PdSeries (pd.mkSeries (PyStr "sex") (StrCol ["f"; "m"; "f"]))))
            None (fresh new_Moment) _ _)).
  reflexivity.
Defined.

(** C3, as stated, fails: a sensitive feature of two entries against three
    labels makes [load_data] raise after [X], [_y] and [tags] have been
    assigned, so the object is no longer what it was, though it is not
    loaded. *)
Lemma C3_partial_state_after_raise :
  let y := PdSeries (pd.mkSeries PyNone (IntCol [i64 0; i64 1; i64 0])) in
  let s := PdSeries (pd.mkSeries PyNone (StrCol ["f"; "m"])) in
  let out := load_data [[1]; [2]; [3]]%Z y (Some s) (fresh new_Moment) in
  (exists e, snd out = Raise e)
  /\ data_loaded (self (fst out)) = false
  /\ X (self (fst out)) = Some [[1]; [2]; [3]]%Z
  /\ _y (self (fst out)) = Some (NwSeries (pd.mkSeries PyNone (IntCol [i64 0; i64 1; i64 0])))
  /\ tags (self (fst out))
     = Some (NwFrame [(_LABEL, IntCol [i64 0; i64 1; i64 0])])
  /\ self (fst out) <> new_Moment.
Proof.
  cbv zeta. repeat split; try reflexivity.
  - eexists. reflexivity.
  - cbv. discriminate.
Qed.

(** C3 (amended): a call of [load_data] that raises does so before
    [data_loaded] is assigned, so the flag keeps its value; a call that
    returns has assigned [X], [_y] and [tags] and set the flag.  ([X], [_y]
    and [tags] may have been assigned before a raise.) *)
Theorem C3_raise_precedes_data_loaded
    (X0 : matrix) (y : array_like) (sf : option array_like)
    (w w' : world) (r : result unit) :
  load_data X0 y sf w = (w', r) ->
  match r with
  | inl e => data_loaded (self w') = data_loaded (self w)
  | inr _ =>
      data_loaded (self w') = true
      /\ X (self w') = Some X0
      /\ (exists s, _y (self w') = Some (NwSeries s) /\ pd.values s = data_of y)
      /\ (exists t, tags (self w') = Some (NwFrame t)
                    /\ nw.get_column t _LABEL = Some (data_of y))
  end.
Proof.
  intros H. apply load_data_outcome in H. destruct r as [e|u].
  - tauto.
  - destruct H as (_ & Hd & _ & Hx & Hy & _ & _ & _ & t & Ht & Hl & _).
    repeat split; auto.
    + eexists. split; [exact Hy|reflexivity].
    + exists t. auto.
Qed.

Lemma C3_raise_precedes_data_loaded_witness :
  let w' := fst (load_data [[1]; [2]]%Z (NdArray (IntCol [i64 0; i64 1])) None
                   (fresh new_Moment)) in
  data_loaded (self w') = data_loaded (self (fresh new_Moment)).
Proof.
  cbv zeta.
  exact (C3_raise_precedes_data_loaded [[1]; [2]]%Z (NdArray (IntCol [i64 0; i64 1]))
           None (fresh new_Moment) _
           (inl (Exc AttributeError
                   "'numpy.ndarray' object has no attribute 'alias'")) eq_refl).
Defined.

(** C4: after a call [load_data(X, y, sensitive_features=s)] that returns,
    where [X] has [N] rows and [y] and [s] have [N] entries,
    [total_samples] is [N], [tags] has [N] rows, and row [i] of its
    [group_id] column is [s[i]] for every [i < N]. *)
Theorem C4_group_id_aligned
    (X0 : matrix) (y s : array_like) (w w' : world) (N : nat) :
  load_data X0 y (Some s) w = (w', Ok tt) ->
  shape0 X0 = N -> len y = N -> len s = N ->
  total_samples w' = (w', Ok N)
  /\ exists t g,
       tags (self w') = Some (NwFrame t)
       /\ nw.height t = N
       /\ nw.get_column t _GROUP_ID = Some g
       /\ col_len g = N
       /\ forall i, i < N -> col_get g i = col_get (data_of s) i.
Proof.
  intros H HX Hy Hs.
  pose proof (load_data_tags_group_id _ _ _ _ _ H (eq_trans Hs (eq_sym Hy))) as Ht.
  apply load_data_outcome in H. cbn in H.
  destruct H as (_ & _ & _ & Hx & _).
  split.
  - unfold total_samples, getattr, bind, get_self, ret, Ok. cbn.
    rewrite Hx. cbn. now rewrite HX.
  - exists [(_LABEL, data_of y); (_GROUP_ID, data_of s)], (data_of s).
    repeat split; auto.
Qed.

Lemma C4_group_id_aligned_witness :
  let y := PdSeries (pd.mkSeries PyNone (IntCol [i64 0; i64 1; i64 0])) in
  let s := PdSeries (pd.mkSeries (PyStr "sex") (StrCol ["f"; "m"; "f"])) in
  let w' := fst (load_data [[1]; [2]; [3]]%Z y (Some s) (fresh new_Moment)) in
  total_samples w' = (w', Ok 3).
Proof.
  cbv zeta.
  refine (proj1 (C4_group_id_aligned [[1]; [2]; [3]]%Z
            (PdSeries (pd.mkSeries PyNone (IntCol [i64 0; i64 1; i64 0])))
            (PdSeries (pd.mkSeries (PyStr "sex") (StrCol ["f"; "m"; "f"])))
            (fresh new_Moment) _ 3 _ _ _ _)); reflexivity.
Defined.

(** C7: after a call [load_data(X, y, sensitive_features=None)] that
    returns, [tags] has the single column [label], which holds the labels;
    there is no [group_id] column. *)
Theorem C7_tags_label_only (X0 : matrix) (y : array_like) (w w' : world) :
  load_data X0 y None w = (w', Ok tt) ->
  exists t,
    tags (self w') = Some (NwFrame t)
    /\ t = [(_LABEL, data_of y)]
    /\ nw.columns t = ["label"]
    /\ nw.get_column t "label" = Some (data_of y)
    /\ nw.get_column t "group_id" = None.
Proof.
  intros H. apply load_data_tags_label in H.
  eexists. split; [exact H|]. repeat split.
Qed.

Lemma C7_tags_label_only_witness :
  let y := PdSeries (pd.mkSeries PyNone (IntCol [i64 0; i64 1; i64 0])) in
  let w' := fst (load_data [[1]; [2]; [3]]%Z y None (fresh new_Moment)) in
  exists t, tags (self w') = Some (NwFrame t) /\ nw.columns t = ["label"].
Proof.
  cbv zeta.
  destruct (C7_tags_label_only [[1]; [2]; [3]]%Z
              (PdSeries (pd.mkSeries PyNone (IntCol [i64 0; i64 1; i64 0])))
              (fresh new_Moment) _ eq_refl) as (t & Ht & _ & Hc & _).
  exists t. split; assumption.
Defined.

(** C6: each of [gamma], [bound], [project_lambda] and [signed_weights],
    called on an object of the base class (or of a subclass, which inherits
    them), raises [NotImplementedError]; it returns nothing, changes
    nothing, and the exception is of another class than those data errors
    are raised with. *)
Theorem C6_numerical_operations_raise
    (P L : Type) (predictor : P) (lambda_vec : L) (w : world) :
  gamma predictor w = (w, Raise (Exc NotImplementedError ""))
  /\ bound w = (w, Raise (Exc NotImplementedError ""))
  /\ project_lambda lambda_vec w = (w, Raise (Exc NotImplementedError ""))
  /\ signed_weights lambda_vec w = (w, Raise (Exc NotImplementedError ""))
  /\ forall c, In c [AssertionError; AttributeError; ShapeError; TypeError;
                     ValueError] -> c <> NotImplementedError.
Proof.
  repeat split.
  intros c Hc. cbn in Hc.
  repeat (destruct Hc as [<-|Hc]; [discriminate|]). contradiction.
Qed.

(** C9: [ClassificationMoment()._moment_type()] and
    [LossMoment(loss)._moment_type()] return different values, each the
    class of the object, and [LossMoment(loss).reduction_loss] is [loss]
    itself. *)
Theorem C9_moment_types_and_loss (loss : object_ref) :
  _moment_type (fresh new_ClassificationMoment)
  = (fresh new_ClassificationMoment, Ok (V_class ClassificationMoment))
  /\ _moment_type (fresh (new_LossMoment loss))
     = (fresh (new_LossMoment loss), Ok (V_class LossMoment))
  /\ V_class ClassificationMoment <> V_class LossMoment
  /\ reduction_loss (new_LossMoment loss) = Some loss
  /\ (forall o, reduction_loss (new_LossMoment loss) = Some o ->
                py_is o loss = true).
Proof.
  repeat split; try discriminate.
  cbn. intros o H. injection H as <-. apply Nat.eqb_refl.
Qed.

(** C10, as stated, fails: what the base class returns is an instance of
    [NotImplementedError], not the class. *)
Lemma C10_returns_instance_not_class :
  _moment_type (fresh new_Moment)
  = (fresh new_Moment, Ok (V_exc_instance (Exc NotImplementedError "")))
  /\ _moment_type (fresh new_Moment)
     <> (fresh new_Moment, Ok (V_exc_class NotImplementedError)).
Proof. split; [reflexivity|discriminate]. Qed.

(** C10 (amended): [_moment_type] on an object of the base class does not
    raise: it returns a new [NotImplementedError] instance as an ordinary
    value and changes nothing, where [gamma] on the same object raises. *)
Theorem C10_base_moment_type_returns (w : world) :
  cls (self w) = Moment ->
  _moment_type w = (w, Ok (V_exc_instance (Exc NotImplementedError "")))
  /\ (forall c, _moment_type w <> (w, Ok (V_class c)))
  /\ gamma tt w = (w, Raise (Exc NotImplementedError "")).
Proof.
  intros H. unfold _moment_type, bind, get_self, Ok. cbn. rewrite H. cbn.
  repeat split. intros c. discriminate.
Qed.

Lemma C10_base_moment_type_returns_witness :
  _moment_type (fresh new_Moment)
  = (fresh new_Moment, Ok (V_exc_instance (Exc NotImplementedError ""))).
Proof.
  exact (proj1 (C10_base_moment_type_returns (fresh new_Moment) eq_refl)).
Defined.

(* ===================================================================== *)
(** * Further properties of [GroupFeature] *)
(* ===================================================================== *)

Lemma name_not_resolved (name : option string) (fv : array_like) :
  name_resolves name fv = false ->
  name = None
  /\ exists v, intrinsic_name fv = Some v
               /\ is_None v = false /\ isinstance_str v = false.
Proof.
  unfold name_resolves, name_absent_or_str.
  destruct name as [n|]; [discriminate|].
  destruct (intrinsic_name fv) as [v|]; [|discriminate].
  intros H. apply orb_false_iff in H. destruct H as [H1 H2].
  split; [reflexivity|]. exists v. auto.
Qed.

(** What the constructor stores when it returns, whatever the name. *)
Lemma GroupFeature_init_stores
    (base_name : string) (fv : array_like) (index : Z) (name : option string)
    (g : GroupFeature) :
  GroupFeature_init base_name fv index name = Ok g ->
  raw_feature_ g = to_native_series fv
  /\ np.unique fv = Ok (classes_ g).
Proof.
  intros H. destruct (np.unique fv) as [e|c] eqn:Hc.
  - rewrite (GroupFeature_init_unsortable _ _ _ _ _ Hc) in H. discriminate.
  - destruct (name_resolves name fv) eqn:Hn.
    + rewrite (GroupFeature_init_returns _ _ _ _ _ Hc Hn) in H.
      injection H as <-. split; reflexivity.
    + destruct (name_not_resolved _ _ Hn) as (-> & v & Hv & H1 & H2).
      rewrite (GroupFeature_init_rejects _ _ _ _ _ Hc Hv H1 H2) in H.
      discriminate.
Qed.

(** The constructor raises in two cases only.  [np.unique], which runs
    first, raises [TypeError] on values it cannot sort, with or without an
    explicit name.  When it returns, the constructor raises only if no
    explicit name is passed and the feature vector is a Series whose name
    is neither [None] nor a string, and what it raises is a
    [ValueError]. *)
Theorem GroupFeature_init_raises_iff
    (base_name : string) (fv : array_like) (index : Z) (name : option string) :
  ((exists e, GroupFeature_init base_name fv index name = Raise e)
   <-> can_sort fv = false \/ name_resolves name fv = false)
  /\ (can_sort fv = false ->
      exists e, GroupFeature_init base_name fv index name = Raise e
                /\ exc_type e = TypeError)
  /\ (can_sort fv = true ->
      forall e, GroupFeature_init base_name fv index name = Raise e ->
                exc_type e = ValueError).
Proof.
  destruct (can_sort fv) eqn:Hs.
  - destruct (unique_returns fv Hs) as [c Hc].
    destruct (name_resolves name fv) eqn:Hn.
    + rewrite (GroupFeature_init_returns _ _ _ _ _ Hc Hn).
      split; [split|split].
      * intros [e H]. discriminate.
      * intros [H|H]; discriminate.
      * discriminate.
      * intros _ e H. discriminate.
    + destruct (name_not_resolved _ _ Hn) as (-> & v & Hv & H1 & H2).
      rewrite (GroupFeature_init_rejects _ _ _ _ _ Hc Hv H1 H2).
      split; [split|split].
      * auto.
      * intros _. eexists. reflexivity.
      * discriminate.
      * intros _ e H. injection H as <-. reflexivity.
  - destruct (unique_raises fv Hs) as (e & He & Ht).
    rewrite (GroupFeature_init_unsortable _ _ _ _ _ He).
    split; [split|split].
    + auto.
    + intros _. exists e. reflexivity.
    + intros _. exists e. split; [reflexivity|exact Ht].
    + discriminate.
Qed.

(** The raw feature a group feature keeps is never a narwhals Series: it
    is the native Series (or the array) with the data and the name of the
    feature vector passed. *)
Theorem GroupFeature_raw_feature_native
    (base_name : string) (fv : array_like) (index : Z) (name : option string)
    (g : GroupFeature) :
  GroupFeature_init base_name fv index name = Ok g ->
  isinstance_nw_Series (raw_feature_ g) = false
  /\ data_of (raw_feature_ g) = data_of fv
  /\ intrinsic_name (raw_feature_ g) = intrinsic_name fv
  /\ (isinstance_nw_Series fv = false -> raw_feature_ g = fv).
Proof.
  intros H. apply GroupFeature_init_stores in H. destruct H as [-> _].
  destruct fv; cbn; repeat split; auto; discriminate.
Qed.

Lemma GroupFeature_raw_feature_native_witness :
  let s := pd.mkSeries (PyStr "race") (StrCol ["c"; "a"; "c"]) in
  isinstance_nw_Series
    (raw_feature_ (mkGroupFeature (PdSeries s) (StrCol ["a"; "c"]) "race")) = false.
Proof.
  cbv zeta.
  exact (proj1 (GroupFeature_raw_feature_native "sf"
           (NwSeries (pd.mkSeries (PyStr "race") (StrCol ["c"; "a"; "c"]))) 0 None
           _ eq_refl)).
Defined.

Lemma col_len_items (c : column) : col_len c = length (col_items c).
Proof. destruct c; cbn; now rewrite length_map. Qed.

(** A group feature never has more classes than the feature vector has
    entries, and it has none exactly when the feature vector is empty;
    its classes are the values of the feature vector, each once, in
    strictly increasing order.  This holds on every path on which the
    constructor returns, the explicit name included. *)
Theorem GroupFeature_classes_bounded
    (base_name : string) (fv : array_like) (index : Z) (name : option string)
    (g : GroupFeature) :
  GroupFeature_init base_name fv index name = Ok g ->
  col_len (classes_ g) <= len fv
  /\ (col_len (classes_ g) = 0 <-> len fv = 0)
  /\ NoDup (col_items (classes_ g))
  /\ strictly_increasing (classes_ g)
  /\ forall v, In v (col_items (classes_ g)) <-> In v (col_items (data_of fv)).
Proof.
  intros H. apply GroupFeature_init_stores in H. destruct H as [_ Hc].
  destruct (unique_col_spec _ _ Hc) as (Hs & Hnd & Hin).
  unfold len. rewrite !col_len_items.
  split; [|split; [|auto]].
  - apply NoDup_incl_length; [exact Hnd|]. intros v Hv. apply Hin, Hv.
  - split; intros H0.
    + destruct (col_items (data_of fv)) as [|v l] eqn:E; [reflexivity|].
      assert (Hv : In v (col_items (classes_ g)))
        by (apply Hin; left; reflexivity).
      apply length_zero_iff_nil in H0. rewrite H0 in Hv. contradiction.
    + destruct (col_items (classes_ g)) as [|v l] eqn:E; [reflexivity|].
      assert (Hv : In v (col_items (data_of fv)))
        by (apply Hin; left; reflexivity).
      apply length_zero_iff_nil in H0. rewrite H0 in Hv. contradiction.
Qed.

Lemma GroupFeature_classes_bounded_witness :
  col_len (StrCol ["f"; "m"]) <= len (PdSeries (pd.mkSeries (PyInt 0)
                                        (StrCol ["f"; "m"; "f"]))).
Proof.
  exact (proj1 (GroupFeature_classes_bounded "sf"
           (PdSeries (pd.mkSeries (PyInt 0) (StrCol ["f"; "m"; "f"]))) 0
           (Some "gender") _ eq_refl)).
Defined.

Lemma str_PyInt_inj (i j : Z) : str (PyInt i) = str (PyInt j) -> i = j.
Proof.
  cbn. intros H. apply DecimalZ.to_int_inj.
  assert (Hnz : forall z, Z.to_int z <> Decimal.Pos Decimal.Nil
                          /\ Z.to_int z <> Decimal.Neg Decimal.Nil).
  { intros [|p|p]; cbn; split; try discriminate;
      intros E; injection E as E;
      exact (DecimalPos.Unsigned.to_uint_nonnil p E). }
  destruct (Hnz i) as [Hi1 Hi2]. destruct (Hnz j) as [Hj1 Hj2].
  pose proof (NilZero.isi _ Hi1 Hi2) as Ei.
  pose proof (NilZero.isi _ Hj1 Hj2) as Ej.
  rewrite H in Ei. congruence.
Qed.

Lemma append_cancel_l (p s t : string) : p ++ s = p ++ t -> s = t.
Proof.
  induction p as [|c p IH]; cbn; [auto|]. intros H. injection H as H. auto.
Qed.

(** Features that carry no name of their own and get none from the caller
    are named by base name and index: under one base name, two indices
    never give the same name.  (The values are such that [np.unique]
    returns on them; otherwise there is no feature to name.) *)
Theorem GroupFeature_default_names_distinct
    (base_name : string) (fv1 fv2 : array_like) (i1 i2 : Z) :
  unnamed fv1 = true -> unnamed fv2 = true ->
  can_sort fv1 = true -> can_sort fv2 = true ->
  i1 <> i2 ->
  exists g1 g2,
    GroupFeature_init base_name fv1 i1 None = Ok g1
    /\ GroupFeature_init base_name fv2 i2 None = Ok g2
    /\ name_ g1 = base_name ++ str (PyInt i1)
    /\ name_ g2 = base_name ++ str (PyInt i2)
    /\ name_ g1 <> name_ g2.
Proof.
  intros H1 H2 S1 S2 Hne.
  assert (Hd : forall fv i, unnamed fv = true -> can_sort fv = true ->
    exists g, GroupFeature_init base_name fv i None = Ok g
              /\ name_ g = base_name ++ str (PyInt i)).
  { intros fv i Hu Hs. destruct (unique_returns fv Hs) as [c Hc].
    assert (Hn : name_resolves None fv = true).
    { unfold name_resolves, name_absent_or_str, unnamed in *.
      destruct (intrinsic_name fv); [rewrite Hu|]; reflexivity. }
    eexists. split; [exact (GroupFeature_init_returns _ _ _ _ _ Hc Hn)|].
    unfold unnamed in Hu. cbn.
    destruct (intrinsic_name fv) as [[| | | |]|]; cbn in *;
      try discriminate; reflexivity. }
  destruct (Hd fv1 i1 H1 S1) as (g1 & E1 & N1).
  destruct (Hd fv2 i2 H2 S2) as (g2 & E2 & N2).
  exists g1, g2. repeat split; auto.
  rewrite N1, N2. intros E. apply append_cancel_l, str_PyInt_inj in E. auto.
Qed.

Lemma GroupFeature_default_names_distinct_witness :
  exists g1 g2,
    GroupFeature_init "sf_" (NdArray (IntCol [i64 1; i64 0])) 1 None = Ok g1
    /\ GroupFeature_init "sf_"
         (PdSeries (pd.mkSeries PyNone (StrCol ["a"]))) 12 None = Ok g2
    /\ name_ g1 <> name_ g2.
Proof.
  destruct (GroupFeature_default_names_distinct "sf_"
              (NdArray (IntCol [i64 1; i64 0]))
              (PdSeries (pd.mkSeries PyNone (StrCol ["a"]))) 1 12
              eq_refl eq_refl eq_refl eq_refl ltac:(discriminate))
    as (g1 & g2 & E1 & E2 & _ & _ & Hne).
  exists g1, g2. auto.
Defined.

(* ===================================================================== *)
(** * Further properties of [Moment] *)
(* ===================================================================== *)

(** [make_series] of the parts of a Series is the Series. *)
Lemma series_eta (s : pd.Series) : pd.mkSeries (pd.name s) (pd.values s) = s.
Proof. destruct s; reflexivity. Qed.

(** On an object that is not loaded, with Series for the labels and, if
    any, the sensitive feature of as many entries, [load_data] returns. *)
Lemma load_data_returns (X0 : matrix) (y : array_like)
    (sf : option array_like) (w : world) :
  data_loaded (self w) = false ->
  is_series y = true ->
  match sf with
  | None => True
  | Some s => is_series s = true /\ len s = len y
  end ->
  exists w', load_data X0 y sf w = (w', Ok tt).
Proof.
  destruct w as [[c dl x0 y0 t0 g0 l0] out]. cbn. intros -> Hy Hs.
  destruct sf as [s|].
  - destruct Hs as [Hs Hl]. unfold len in Hl.
    destruct s as [s|s|a]; cbn in Hs, Hl; try discriminate;
      destruct y as [sy|sy|ay]; cbn in Hy, Hl; try discriminate;
      run_load_data; rewrite Hl, Nat.eqb_refl; cbn; eexists; reflexivity.
  - destruct y as [sy|sy|ay]; cbn in Hy; try discriminate;
      run_load_data; eexists; reflexivity.
Qed.

(** A sensitive feature that is not a Series (an array, a list) makes
    [load_data] raise [TypeError] before its first assignment: the object
    and the output are what they were. *)
Theorem load_data_sensitive_feature_must_be_series
    (X0 : matrix) (y : array_like) (c : column) (w : world) :
  data_loaded (self w) = false ->
  exists e,
    load_data X0 y (Some (NdArray c)) w = (w, Raise e)
    /\ exc_type e = TypeError.
Proof. apply load_data_not_series. Qed.

Lemma load_data_sensitive_feature_must_be_series_witness :
  exists e,
    load_data [[1]; [2]]%Z (PdSeries (pd.mkSeries PyNone (IntCol [i64 0; i64 1])))
      (Some (NdArray (StrCol ["f"; "m"]))) (fresh new_Moment)
    = (fresh new_Moment, Raise e)
    /\ exc_type e = TypeError.
Proof.
  exact (load_data_sensitive_feature_must_be_series [[1]; [2]]%Z
           (PdSeries (pd.mkSeries PyNone (IntCol [i64 0; i64 1])))
           (StrCol ["f"; "m"]) (fresh new_Moment) eq_refl).
Defined.

(** Labels that are not a Series (an array, a list) make [load_data] raise
    [AttributeError] at [self._y.alias]: [X] and [_y] have been assigned by
    then, [tags] and [data_loaded] have not, nothing was printed. *)
Theorem load_data_labels_must_be_series
    (X0 : matrix) (c : column) (sf : option array_like) (w : world) :
  data_loaded (self w) = false ->
  match sf with None => True | Some s => is_series s = true end ->
  exists e,
    load_data X0 (NdArray c) sf w
    = (mkWorld (set__y (NdArray c) (set_X X0 (self w))) (stdout w), Raise e)
    /\ exc_type e = AttributeError.
Proof.
  destruct w as [[k dl x0 y0 t0 g0 l0] out]. cbn. intros -> Hs.
  run_load_data.
  destruct sf as [[s|s|a]|]; cbn in *; try discriminate;
    eexists; split; reflexivity.
Qed.

Lemma load_data_labels_must_be_series_witness :
  exists e,
    load_data [[1]; [2]]%Z (NdArray (IntCol [i64 0; i64 1])) None (fresh new_Moment)
    = (mkWorld (set__y (NdArray (IntCol [i64 0; i64 1]))
                  (set_X [[1]; [2]]%Z new_Moment)) [], Raise e)
    /\ exc_type e = AttributeError.
Proof.
  exact (load_data_labels_must_be_series [[1]; [2]]%Z (IntCol [i64 0; i64 1]) None
           (fresh new_Moment) eq_refl I).
Defined.

(** [load_data] does not compare the number of rows of [X] with the number
    of labels: without sensitive feature it returns on every unloaded
    object for every [X] and every Series of labels, and then
    [total_samples] is the number of rows of [X] while [tags] has as many
    rows as there are labels. *)
Theorem load_data_does_not_check_rows
    (X0 : matrix) (y : array_like) (w : world) :
  data_loaded (self w) = false ->
  is_series y = true ->
  exists w',
    load_data X0 y None w = (w', Ok tt)
    /\ total_samples w' = (w', Ok (shape0 X0))
    /\ tags (self w') = Some (NwFrame [(_LABEL, data_of y)])
    /\ nw.height [(_LABEL, data_of y)] = len y.
Proof.
  intros Hd Hy.
  destruct (load_data_returns X0 y None w Hd Hy I) as [w' H].
  exists w'. split; [exact H|].
  pose proof (load_data_tags_label _ _ _ _ H) as Ht.
  apply load_data_outcome in H. cbn in H.
  destruct H as (_ & _ & _ & Hx & _).
  repeat split; auto.
  unfold total_samples, getattr, bind, get_self, ret, Ok. cbn.
  rewrite Hx. reflexivity.
Qed.

Lemma load_data_does_not_check_rows_witness :
  exists w',
    load_data [[7]]%Z (PdSeries (pd.mkSeries PyNone (IntCol [i64 0; i64 1; i64 0]))) None
      (fresh new_Moment) = (w', Ok tt)
    /\ total_samples w' = (w', Ok 1)
    /\ nw.height [(_LABEL, IntCol [i64 0; i64 1; i64 0])] = 3.
Proof.
  destruct (load_data_does_not_check_rows [[7]]%Z
              (PdSeries (pd.mkSeries PyNone (IntCol [i64 0; i64 1; i64 0])))
              (fresh new_Moment) eq_refl eq_refl) as (w' & H & Ht & _ & Hh).
  exists w'. repeat split; assumption.
Defined.

(** With Series for the labels and for a sensitive feature of as many
    entries, [load_data] returns on every unloaded object, and [tags] is
    the labels under [label] followed by the sensitive feature under
    [group_id], whatever names the two Series had. *)
Theorem load_data_returns_with_sensitive_feature
    (X0 : matrix) (y s : array_like) (w : world) :
  data_loaded (self w) = false ->
  is_series y = true -> is_series s = true -> len s = len y ->
  exists w',
    load_data X0 y (Some s) w = (w', Ok tt)
    /\ tags (self w')
       = Some (NwFrame [("label", data_of y); ("group_id", data_of s)])
    /\ data_loaded (self w') = true.
Proof.
  intros Hd Hy Hs Hl.
  destruct (load_data_returns X0 y (Some s) w Hd Hy (conj Hs Hl)) as [w' H].
  exists w'. split; [exact H|]. split.
  - exact (load_data_tags_group_id _ _ _ _ _ H Hl).
  - apply load_data_outcome in H. cbn in H. tauto.
Qed.

Lemma load_data_returns_with_sensitive_feature_witness :
  exists w',
    load_data [[1]; [2]]%Z (PdSeries (pd.mkSeries (PyStr "y") (IntCol [i64 0; i64 1])))
      (Some (NwSeries (pd.mkSeries (PyInt 3) (StrCol ["f"; "m"]))))
      (fresh new_ClassificationMoment) = (w', Ok tt)
    /\ tags (self w')
       = Some (NwFrame [("label", IntCol [i64 0; i64 1]);
                        ("group_id", StrCol ["f"; "m"])]).
Proof.
  destruct (load_data_returns_with_sensitive_feature [[1]; [2]]%Z
              (PdSeries (pd.mkSeries (PyStr "y") (IntCol [i64 0; i64 1])))
              (NwSeries (pd.mkSeries (PyInt 3) (StrCol ["f"; "m"])))
              (fresh new_ClassificationMoment) eq_refl eq_refl eq_refl eq_refl)
    as (w' & H & Ht & _).
  exists w'. split; assumption.
Defined.

(** A call of [load_data] that raised has not used up the one load: a
    later call with a Series of labels returns and replaces whatever the
    failed call had assigned. *)
Theorem load_data_again_after_raise
    (X1 X2 : matrix) (y1 y2 : array_like) (sf1 : option array_like)
    (w w1 : world) (e : exn) :
  data_loaded (self w) = false ->
  load_data X1 y1 sf1 w = (w1, Raise e) ->
  is_series y2 = true ->
  exists w2,
    load_data X2 y2 None w1 = (w2, Ok tt)
    /\ data_loaded (self w2) = true
    /\ X (self w2) = Some X2
    /\ _y (self w2) = Some (wrapped y2)
    /\ tags (self w2) = Some (NwFrame [(_LABEL, data_of y2)]).
Proof.
  intros Hd H1 Hy.
  apply load_data_outcome in H1. cbn in H1. destruct H1 as (Hd1 & _).
  rewrite Hd in Hd1.
  destruct (load_data_returns X2 y2 None w1 Hd1 Hy I) as [w2 H2].
  exists w2. split; [exact H2|].
  pose proof (load_data_tags_label _ _ _ _ H2) as Ht.
  apply load_data_outcome in H2. cbn in H2.
  destruct H2 as (_ & Hl & _ & Hx & Hy2 & _).
  repeat split; auto.
  rewrite Hy2. destruct y2 as [s|s|c]; cbn in *; try discriminate;
    now rewrite series_eta.
Qed.

Lemma load_data_again_after_raise_witness :
  let w1 := fst (load_data [[1]; [2]; [3]]%Z
                   (PdSeries (pd.mkSeries PyNone (IntCol [i64 0; i64 1; i64 0])))
                   (Some (PdSeries (pd.mkSeries PyNone (StrCol ["f"; "m"]))))
                   (fresh new_Moment)) in
  exists w2,
    load_data [[4]; [5]]%Z (PdSeries (pd.mkSeries PyNone (IntCol [i64 1; i64 1])))
      None w1 = (w2, Ok tt)
    /\ X (self w2) = Some [[4]; [5]]%Z
    /\ tags (self w2) = Some (NwFrame [(_LABEL, IntCol [i64 1; i64 1])]).
Proof.
  cbv zeta.
  destruct (load_data_again_after_raise [[1]; [2]; [3]]%Z [[4]; [5]]%Z
              (PdSeries (pd.mkSeries PyNone (IntCol [i64 0; i64 1; i64 0])))
              (PdSeries (pd.mkSeries PyNone (IntCol [i64 1; i64 1])))
              (Some (PdSeries (pd.mkSeries PyNone (StrCol ["f"; "m"]))))
              (fresh new_Moment) _
              (Exc ShapeError "length of the column does not match")
              eq_refl eq_refl eq_refl) as (w2 & H & _ & Hx & _ & Ht).
  exists w2. repeat split; assumption.
Defined.

(** Every call of [load_data] that returns has printed one line, the
    column list [['label']]: the line is printed before the [group_id]
    column is added, so it is the same with a sensitive feature. *)
Theorem load_data_prints_label_column
    (X0 : matrix) (y : array_like) (sf : option array_like) (w w' : world) :
  load_data X0 y sf w = (w', Ok tt) ->
  stdout w' = (stdout w ++ ["['label']"])%list.
Proof.
  destruct w as [[c dl x0 y0 t0 g0 l0] out].
  run_load_data. destruct dl; cbn; [discriminate|].
  destruct sf as [[s|s|a]|]; cbn; try discriminate;
    destruct y as [sy|sy|ay]; cbn; try discriminate;
    try (destruct (Nat.eqb (col_len (pd.values s)) (col_len (pd.values sy)));
         [|destruct (Nat.eqb (col_len (pd.values s)) 1)]; cbn;
         try discriminate);
    intros H; injection H as <-; reflexivity.
Qed.

Lemma load_data_prints_label_column_witness :
  let out := load_data [[1]; [2]]%Z
               (PdSeries (pd.mkSeries PyNone (IntCol [i64 0; i64 1])))
               (Some (PdSeries (pd.mkSeries PyNone (StrCol ["f"; "m"]))))
               (fresh new_Moment) in
  stdout (fst out) = ([] ++ ["['label']"])%list.
Proof.
  cbv zeta.
  exact (load_data_prints_label_column [[1]; [2]]%Z
           (PdSeries (pd.mkSeries PyNone (IntCol [i64 0; i64 1])))
           (Some (PdSeries (pd.mkSeries PyNone (StrCol ["f"; "m"]))))
           (fresh new_Moment) _ eq_refl).
Defined.

(** After a call of [load_data] that returned, [_y_as_series] returns the
    labels as the narwhals Series made of them, also when a pandas Series
    was passed: the values and the name are those of [y] (the name [label]
    is given to the column of [tags] only). *)
Theorem y_as_series_after_load
    (X0 : matrix) (y : array_like) (sf : option array_like) (w w' : world) :
  load_data X0 y sf w = (w', Ok tt) ->
  _y_as_series w' = (w', Ok (wrapped y))
  /\ isinstance_nw_Series (wrapped y) = true
  /\ data_of (wrapped y) = data_of y
  /\ intrinsic_name (wrapped y) = intrinsic_name y.
Proof.
  intros H. apply load_data_outcome in H. cbn in H.
  destruct H as (_ & _ & _ & _ & Hy & Hs & _).
  unfold _y_as_series, getattr, bind, get_self, ret, Ok. cbn. rewrite Hy.
  destruct y as [s|s|c]; cbn in *; try discriminate;
    rewrite series_eta; repeat split.
Qed.

Lemma y_as_series_after_load_witness :
  let y := PdSeries (pd.mkSeries (PyStr "target") (IntCol [i64 0; i64 1])) in
  let w' := fst (load_data [[1]; [2]]%Z y None (fresh new_Moment)) in
  _y_as_series w'
  = (w', Ok (NwSeries (pd.mkSeries (PyStr "target") (IntCol [i64 0; i64 1])))).
Proof.
  cbv zeta.
  exact (proj1 (y_as_series_after_load [[1]; [2]]%Z
           (PdSeries (pd.mkSeries (PyStr "target") (IntCol [i64 0; i64 1]))) None
           (fresh new_Moment) _ eq_refl)).
Defined.

(** On an object as a constructor of the file makes it, nothing but
    [data_loaded] (and the loss of a [LossMoment]) is assigned:
    [total_samples], [_y_as_series] and [_to_native_everything] raise
    [AttributeError] and change nothing. *)
Theorem unloaded_object_has_no_data (i : instance) :
  constructed i ->
  data_loaded i = false
  /\ (exists e, total_samples (fresh i) = (fresh i, Raise e)
                /\ exc_type e = AttributeError)
  /\ (exists e, _y_as_series (fresh i) = (fresh i, Raise e)
                /\ exc_type e = AttributeError)
  /\ (exists e, _to_native_everything (fresh i) = (fresh i, Raise e)
                /\ exc_type e = AttributeError).
Proof.
  intros [->|[->|[loss ->]]];
    (split; [reflexivity|]); repeat split; eexists; split; reflexivity.
Qed.

Lemma unloaded_object_has_no_data_witness :
  exists e, total_samples (fresh (new_LossMoment (Ref 5)))
            = (fresh (new_LossMoment (Ref 5)), Raise e)
            /\ exc_type e = AttributeError.
Proof.
  exact (proj1 (proj2 (unloaded_object_has_no_data (new_LossMoment (Ref 5))
           (or_intror (or_intror (ex_intro _ (Ref 5) eq_refl)))))).
Defined.

(** What [_to_native_everything] can change, whether it returns or raises:
    only the wrapping of [_y] and of [tags]. *)
Lemma to_native_everything_keeps (w : world) :
  let w' := after _to_native_everything w in
  data_loaded (self w') = data_loaded (self w)
  /\ cls (self w') = cls (self w)
  /\ X (self w') = X (self w)
  /\ option_map frame_table (tags (self w'))
     = option_map frame_table (tags (self w))
  /\ _gamma_descr (self w') = _gamma_descr (self w)
  /\ reduction_loss (self w') = reduction_loss (self w)
  /\ stdout w' = stdout w
  /\ option_map data_of (_y (self w')) = option_map data_of (_y (self w))
  /\ option_map intrinsic_name (_y (self w'))
     = option_map intrinsic_name (_y (self w))
  /\ (_y (self w') = _y (self w)
      \/ _y (self w') = option_map to_native_series (_y (self w)))
  /\ (tags (self w') = tags (self w)
      \/ tags (self w') = option_map to_native_frame (tags (self w))).
Proof.
  destruct w as [[c dl x0 y0 t0 g0 l0] out].
  unfold after, _to_native_everything, getattr, bind, get_self, update, ret,
    raise, Ok, Raise. cbn.
  destruct x0 as [x|]; cbn; [|repeat split; auto].
  destruct y0 as [[s|s|a]|]; cbn; try (repeat split; auto; fail);
    destruct t0 as [[t|t]|]; cbn; repeat split; auto.
Qed.





(** [_to_native_everything] twice is [_to_native_everything] once, on every
    object: same final object, same outcome. *)
Theorem to_native_everything_idempotent (w : world) :
  (_to_native_everything ;; _to_native_everything) w = _to_native_everything w.
Proof.
  destruct w as [[c dl x0 y0 t0 g0 l0] out].
  unfold _to_native_everything, getattr, bind, get_self, update, ret,
    raise, Ok, Raise. cbn.
  destruct x0 as [x|]; cbn; [|reflexivity].
  destruct y0 as [[s|s|a]|]; cbn; try reflexivity;
    destruct t0 as [[t|t]|]; cbn; reflexivity.
Qed.

(** The methods other than [load_data] and [_to_native_everything] leave
    the object and the output as they are. *)
Lemma perform_reads (c : method_call) (w : world) :
  match c with
  | call_load_data _ _ _ | call__to_native_everything => True
  | _ => perform c w = w
  end.
Proof.
  destruct w as [[k dl x0 y0 t0 g0 l0] out].
  destruct c; cbn; auto;
    unfold after, total_samples, _y_as_series, _moment_type, getattr, bind,
      get_self, ret, raise, Ok, Raise; cbn;
    try reflexivity.
  - destruct x0; reflexivity.
  - destruct y0; reflexivity.
  - destruct k; reflexivity.
Qed.

(** No method changes the class of the object or its loss. *)
Lemma perform_keeps_class (c : method_call) (w : world) :
  cls (self (perform c w)) = cls (self w)
  /\ reduction_loss (self (perform c w)) = reduction_loss (self w).
Proof.
  pose proof (perform_reads c w) as Hr.
  destruct c; try (rewrite Hr; split; reflexivity).
  - cbn. unfold after.
    destruct (load_data X0 y sf w) as [w' r] eqn:E.
    apply load_data_outcome in E. cbn. destruct r; tauto.
  - cbn. pose proof (to_native_everything_keeps w) as H. cbn in H. tauto.
Qed.






(** Through every sequence of calls, returning or raising, an object keeps
    its class and its loss: a [LossMoment(loss)] still has [loss] as its
    [reduction_loss] and [LossMoment] as its [_moment_type], and a
    [ClassificationMoment()] still has [ClassificationMoment]. *)
Theorem calls_keep_class_and_loss (cs : list method_call) (loss : object_ref) :
  let wl := perform_all cs (fresh (new_LossMoment loss)) in
  let wc := perform_all cs (fresh new_ClassificationMoment) in
  reduction_loss (self wl) = Some loss
  /\ _moment_type wl = (wl, Ok (V_class LossMoment))
  /\ _moment_type wc = (wc, Ok (V_class ClassificationMoment)).
Proof.
  assert (H : forall w,
    cls (self (perform_all cs w)) = cls (self w)
    /\ reduction_loss (self (perform_all cs w)) = reduction_loss (self w)).
  { induction cs as [|c cs IH]; intros w; cbn; [split; reflexivity|].
    destruct (perform_keeps_class c w) as [H1 H2].
    destruct (IH (perform c w)) as [I1 I2].
    unfold perform_all in *. split; congruence. }
  cbv zeta.
  destruct (H (fresh (new_LossMoment loss))) as [Hc Hl].
  destruct (H (fresh new_ClassificationMoment)) as [Hc' _].
  unfold _moment_type, bind, get_self, ret, Ok. cbn.
  rewrite Hc, Hc', Hl. repeat split.
Qed.
